(** * Verification of the gulp-tasks helper (src/index.js)

    Shallow embedding of the parts of [src/index.js] that carry logic:
    - [adaptPath] (lines 202-212), with the JavaScript [typeof], [!] and
      loose equality [==] it relies on;
    - the [runner] tasks (lines 114-173): [write-build-done], [start] and
      [restart], over an explicit world state holding the shared variable
      [process], a process table (the objects the variable points to, with
      their event listeners), the PID file, the build file, the pending
      [fs.access] callbacks and a trace of observable effects. *)

From Stdlib Require Import Ascii String List ZArith Bool Arith Lia.
From Stdlib Require Import Decimal DecimalString.
Import ListNotations.
Open Scope string_scope.
Set Warnings "-register-all".

(** ** JavaScript values and the operators used by [adaptPath] *)
Module Js.

Inductive value :=
| VUndefined
| VNull
| VBool (b : bool)
| VNumber (n : Z)
| VString (s : string)
| VArray (xs : list value)
| VObject
| VFunction.

(** [typeof v]: always one of the lower-case type names. *)
Definition typeof (v : value) : string :=
  match v with
  | VUndefined => "undefined"
  | VNull => "object"
  | VBool _ => "boolean"
  | VNumber _ => "number"
  | VString _ => "string"
  | VArray _ => "object"
  | VObject => "object"
  | VFunction => "function"
  end.

(** [ToBoolean] on strings: only the empty string is falsy. *)
Definition string_truthy (s : string) : bool :=
  match s with EmptyString => false | _ => true end.

(** [ToNumber] on strings, restricted to the forms that matter here: the
    empty string is [0], a run of decimal digits is its value, anything
    else is [NaN] (represented by [None]). *)
Fixpoint digits_value (s : string) (acc : Z) : option Z :=
  match s with
  | EmptyString => Some acc
  | String c rest =>
      let k := (Z.of_nat (Ascii.nat_of_ascii c) - 48)%Z in
      if (0 <=? k)%Z && (k <=? 9)%Z
      then digits_value rest (acc * 10 + k)%Z
      else None
  end.

Definition string_to_number (s : string) : option Z :=
  match s with
  | EmptyString => Some 0%Z
  | _ => digits_value s 0%Z
  end.

(** Loose equality [b == s] between a boolean and a string: both sides are
    converted to numbers; [NaN] equals nothing. *)
Definition loose_eq_bool_string (b : bool) (s : string) : bool :=
  match string_to_number s with
  | Some n => Z.eqb (if b then 1 else 0)%Z n
  | None => false
  end.

(** Loose equality between two strings is string equality. *)
Definition loose_eq_string (s t : string) : bool := String.eqb s t.

Inductive result (A : Type) :=
| Ok (a : A)
| Throw (msg : string).
Arguments Ok {A} a.
Arguments Throw {A} msg.

(** [function adaptPath(path)], lines 202-212. *)
Definition adaptPath (path : value) : result value :=
  let path :=
    if loose_eq_string (typeof path) "String" then VArray [path] else path in
  (* [!typeof path == 'Array'] parses as [(!(typeof path)) == 'Array'] *)
  if loose_eq_bool_string (negb (string_truthy (typeof path))) "Array"
  then Throw "Source directory: Array or String expected"
  else Ok path.

End Js.

(** ** The [runner] tasks *)
Module Runner.

(** The listener closures that [runner] registers on child processes. *)
Inductive callback :=
| CbExitClear      (* start, lines 143-146: log, then [process = null] *)
| CbCloseRestart   (* restart, lines 167-170: [process = null], start *)
| CbStdoutStart.   (* restart, lines 157-159: start *)

(** A [ChildProcess] object. [p_exit_code] is its [exitCode] property:
    [None] ([null]) while it runs, and also after a termination by a
    signal. *)
Record proc := mkProc {
  p_cmd : string;
  p_args : list string;
  p_exit_code : option Z;
  p_on_exit : list callback;
  p_on_close : list callback;
  p_on_stdout_close : list callback }.

(** The directory a file path lives in. *)
Inductive parent_dir :=
| DirWritable     (* exists, entries can be created *)
| DirReadOnly     (* exists, no write permission *)
| DirMissing.     (* does not exist *)

(** A file on disk with the permission bits [fs] checks, and its
    parent directory. *)
Record file := mkFile {
  f_exists : bool;
  f_readable : bool;
  f_writable : bool;
  f_content : string;
  f_parent : parent_dir }.

(** Observable effects, in order. *)
Inductive event :=
| EvTask (name : string)                         (* a gulp task runs *)
| EvSpawn (pid : nat) (cmd : string) (args : list string)
| EvSignal (pid : nat)                           (* [ChildProcess.kill()] *)
| EvLog (msg : string)                           (* [console.log] *)
| EvError (msg : string)                         (* [console.error] *)
| EvTaskError (name msg : string).               (* task threw *)

(** Callbacks queued by the event loop: only [fs.access]'s. *)
Inductive pending_cb := AccessCheck.

Record world := mkWorld {
  handle : option nat;        (* the shared variable [process] *)
  procs : list proc;          (* process table; a pid is an index *)
  pid_file : file;
  build_file : file;
  pending : list pending_cb;
  trace : list event }.

(** Result of a task body: it returns, or throws after its effects so far. *)
Inductive outcome :=
| Normal (w : world)
| Thrown (w : world) (err : string).

Definition outcome_world (o : outcome) : world :=
  match o with Normal w => w | Thrown w _ => w end.

(** *** World updates *)
Definition emit (e : event) (w : world) : world :=
  mkWorld (handle w) (procs w) (pid_file w) (build_file w) (pending w)
    (trace w ++ [e]).

Definition set_handle (h : option nat) (w : world) : world :=
  mkWorld h (procs w) (pid_file w) (build_file w) (pending w) (trace w).

Definition set_procs (ps : list proc) (w : world) : world :=
  mkWorld (handle w) ps (pid_file w) (build_file w) (pending w) (trace w).

Definition set_pid_file (f : file) (w : world) : world :=
  mkWorld (handle w) (procs w) f (build_file w) (pending w) (trace w).

Definition set_build_file (f : file) (w : world) : world :=
  mkWorld (handle w) (procs w) (pid_file w) f (pending w) (trace w).

Definition set_pending (q : list pending_cb) (w : world) : world :=
  mkWorld (handle w) (procs w) (pid_file w) (build_file w) q (trace w).

Definition lookup (p : nat) (w : world) : option proc := nth_error (procs w) p.

Fixpoint update_nth {A} (n : nat) (f : A -> A) (l : list A) : list A :=
  match l, n with
  | [], _ => []
  | x :: t, O => f x :: t
  | x :: t, S n => x :: update_nth n f t
  end.

Definition update_proc (p : nat) (f : proc -> proc) (w : world) : world :=
  set_procs (update_nth p f (procs w)) w.

Definition with_exit_code (c : option Z) (pr : proc) : proc :=
  mkProc (p_cmd pr) (p_args pr) c (p_on_exit pr) (p_on_close pr)
    (p_on_stdout_close pr).

(** [child.on('exit', cb)] *)
Definition on_exit (p : nat) (cb : callback) (w : world) : world :=
  update_proc p (fun pr => mkProc (p_cmd pr) (p_args pr) (p_exit_code pr)
    (p_on_exit pr ++ [cb]) (p_on_close pr) (p_on_stdout_close pr)) w.

(** [child.on('close', cb)] *)
Definition on_close (p : nat) (cb : callback) (w : world) : world :=
  update_proc p (fun pr => mkProc (p_cmd pr) (p_args pr) (p_exit_code pr)
    (p_on_exit pr) (p_on_close pr ++ [cb]) (p_on_stdout_close pr)) w.

(** [child.stdout.on('close', cb)] *)
Definition on_stdout_close (p : nat) (cb : callback) (w : world) : world :=
  update_proc p (fun pr => mkProc (p_cmd pr) (p_args pr) (p_exit_code pr)
    (p_on_exit pr) (p_on_close pr) (p_on_stdout_close pr ++ [cb])) w.

(** [spawn(cmd, args)]: a fresh process with no listeners. *)
Definition spawn (cmd : string) (args : list string) (w : world)
  : nat * world :=
  let q := length (procs w) in
  (q, emit (EvSpawn q cmd args)
         (set_procs (procs w ++ [mkProc cmd args None [] [] []]) w)).

(** [fs.writeFileSync(f, data)] (flag 'w'): an existing file is
    truncated and rewritten if it is writable, else EACCES; a missing file
    is created readable and writable in a writable directory, else the
    open fails with EACCES (read-only directory) or ENOENT (no
    directory). *)
Definition write_file_sync (f : file) (data : string) : file + string :=
  if f_exists f then
    if f_writable f then inl (mkFile true (f_readable f) true data (f_parent f))
    else inr "Error: EACCES: permission denied"
  else
    match f_parent f with
    | DirWritable => inl (mkFile true true true data DirWritable)
    | DirReadOnly => inr "Error: EACCES: permission denied"
    | DirMissing => inr "Error: ENOENT: no such file or directory"
    end.

(** [fs.access(f, R_OK | W_OK)] succeeds. *)
Definition access_ok (f : file) : bool :=
  f_exists f && f_readable f && f_writable f.

(** [String(pid)] of a number, as [writeFileSync] stores it. *)
Definition pid_to_string (n : nat) : string :=
  NilZero.string_of_uint (Nat.to_uint n).

Section Tasks.
Variable command : string.   (* [runner]'s parameter [command] *)
Variable debug : bool.       (* [!!debug] *)

(** The argument list built by [start], lines 134-138. *)
Definition start_options : list string :=
  let options : list string := [] in
  let options := if debug then (options ++ ["--inspect=[::]:9229"])%list else options in
  (options ++ [command])%list.

(** Task [start], lines 133-147. *)
Definition start (w : world) : outcome :=
  let w := emit (EvTask "start") w in
  let '(q, w) := spawn "node" start_options w in
  let w := set_handle (Some q) w in
  match write_file_sync (pid_file w) (pid_to_string q) with
  | inr err => Thrown w err
  | inl f =>
      let w := set_pid_file f w in
      match handle w with
      | Some p => Normal (on_exit p CbExitClear w)
      | None => Normal w
      end
  end.

(** [gulp.start('start')]: the task runner reports a thrown error. *)
Definition gulp_start_start (w : world) : world :=
  match start w with
  | Normal w' => w'
  | Thrown w' e => emit (EvTaskError "start" e) w'
  end.

Definition run_cb (cb : callback) (w : world) : world :=
  match cb with
  | CbExitClear => set_handle None (emit (EvLog "*** Process exited ***") w)
  | CbCloseRestart => gulp_start_start (set_handle None w)
  | CbStdoutStart => gulp_start_start w
  end.

(** An emitter calls its listeners in registration order, over a copy of
    the listener array taken when the event fires. *)
Definition run_cbs (cbs : list callback) (w : world) : world :=
  fold_left (fun w cb => run_cb cb w) cbs w.

(** The environment: process [p] exits ([c] is its exit code, [None] when
    a signal ended it); its stdio then closes ('close'); the stdout stream
    of [p] closes; the oldest [fs.access] check completes. *)
Definition proc_exit (p : nat) (c : option Z) (w : world) : world :=
  match lookup p w with
  | None => w
  | Some pr => run_cbs (p_on_exit pr) (update_proc p (with_exit_code c) w)
  end.

Definition proc_close (p : nat) (w : world) : world :=
  match lookup p w with
  | None => w
  | Some pr => run_cbs (p_on_close pr) w
  end.

Definition proc_stdout_close (p : nat) (w : world) : world :=
  match lookup p w with
  | None => w
  | Some pr => run_cbs (p_on_stdout_close pr) w
  end.

(** The [fs.access] callback of [restart], lines 151-161. *)
Definition access_callback (w : world) : world :=
  if access_ok (pid_file w) then
    let pid := f_content (pid_file w) in
    let '(h, w) := spawn "kill" [pid] w in
    let w := set_handle (Some h) w in
    match handle w with
    | Some p => on_stdout_close p CbStdoutStart w
    | None => w
    end
  else emit (EvError "No application running or PID error") w.

Definition access_done (w : world) : world :=
  match pending w with
  | [] => w
  | AccessCheck :: rest => access_callback (set_pending rest w)
  end.

(** Lines 166-170: [process.kill()], then wait for 'close'. *)
Definition kill_and_wait (p : nat) (w : world) : world :=
  on_close p CbCloseRestart (emit (EvSignal p) w).

(** Task [restart], lines 149-173. A handle always points at a process of
    the table; a dangling one is read like a running process. *)
Definition restart (w : world) : world :=
  let w := emit (EvTask "restart") w in
  match handle w with
  | None => set_pending (pending w ++ [AccessCheck]) w
  | Some p =>
      match lookup p w with
      | Some pr =>
          match p_exit_code pr with
          | Some _ => gulp_start_start w
          | None => kill_and_wait p w
          end
      | None => kill_and_wait p w
      end
  end.

(** The world just after [spawn] in [start], before the PID file write. *)
Definition spawned_world (w : world) : world :=
  let q := length (procs w) in
  set_handle (Some q)
    (emit (EvSpawn q "node" start_options)
       (set_procs (procs w ++ [mkProc "node" start_options
                                  None [] [] []])
          (emit (EvTask "start") w))).

End Tasks.

(** Counting invocations of the [start] task in a trace. *)
Definition is_start_task (e : event) : bool :=
  match e with EvTask n => String.eqb n "start" | _ => false end.

Definition count_starts (tr : list event) : nat :=
  length (filter is_start_task tr).

(** How many [start] invocations a listener performs when it runs. *)
Definition cb_starts (cb : callback) : nat :=
  match cb with CbExitClear => 0 | CbCloseRestart => 1 | CbStdoutStart => 1 end.

Definition is_spawn (e : event) : bool :=
  match e with EvSpawn _ _ _ => true | _ => false end.

Definition is_signal (e : event) : bool :=
  match e with EvSignal _ => true | _ => false end.

(** Task [write-build-done], lines 116-122, at time [date]. *)
Definition write_build_done (date : string) (w : world) : outcome :=
  match write_file_sync (build_file w) date with
  | inl f => Normal (set_build_file f w)
  | inr e => Normal (emit (EvError ("Build file not created: " ++ e)) w)
  end.

End Runner.

(** ** The other task helpers of [src/index.js] *)
Module Pipeline.
Import Runner.

(** The task names registered on the [gulp] object; [gulp.hasTask]. *)
Definition has_task (tasks : list string) (name : string) : bool :=
  existsb (String.eqb name) tasks.

(** [function buildDone(gulp)], lines 196-200, called at the end of
    [build-typescript] (line 51) and [copy-assets] (line 78): it runs
    [write-build-done] when some [runner] call registered it. *)
Definition buildDone (tasks : list string) (date : string) (w : world) : world :=
  if has_task tasks "write-build-done"
  then outcome_world (write_build_done date w)
  else w.

(** [s.replace(/\\/g, "/")], line 44: every backslash becomes a slash. *)
Fixpoint replace_backslashes (s : string) : string :=
  match s with
  | EmptyString => EmptyString
  | String c rest =>
      String (if Ascii.eqb c "\"%char then "/"%char else c)
        (replace_backslashes rest)
  end.

(** The [sourceRoot] option of line 44; [path.relative] is Node's. *)
Definition source_root (relative : string -> string -> string)
  (outputDirectory sourceDirectory : string) : string :=
  replace_backslashes (relative outputDirectory sourceDirectory).

(** The [tsProject] variable shared by the runs of [build-typescript]
    (lines 23 and 35). A created project is an object, hence truthy; the
    projects [createProject] returns are numbered in creation order. *)
Record ts_state := mkTs {
  ts_project : option nat;
  projects_created : nat }.

(** [tsProject = tsProject || plugins.typescript.createProject(...)] *)
Definition ensure_ts_project (st : ts_state) : ts_state :=
  match ts_project st with
  | Some p => st
  | None => mkTs (Some (projects_created st)) (S (projects_created st))
  end.

End Pipeline.

(** ** Concrete worlds used to exercise the theorems *)
Module Demo.
Import Runner.

Definition file_rw (c : string) : file := mkFile true true true c DirWritable.
Definition file_ro (c : string) : file := mkFile true true false c DirWritable.
Definition file_missing : file := mkFile false false false "" DirWritable.

(** A worker as [start "server.js"] leaves it. *)
Definition worker : proc := mkProc "node" ["server.js"] None [CbExitClear] [] [].

Definition w_running : world :=
  mkWorld (Some 0) [worker] (file_rw "0") (file_rw "") [] [].
Definition w_exited : world :=
  mkWorld (Some 0) [with_exit_code (Some 1%Z) worker] (file_rw "0")
    (file_rw "") [] [].
Definition w_pid_file : world :=
  mkWorld None [] (file_rw "4242") (file_rw "") [] [].
Definition w_no_pid_file : world :=
  mkWorld None [] file_missing (file_rw "") [] [].
Definition w_ro_files : world :=
  mkWorld None [] (file_ro "17") (file_ro "") [] [].

End Demo.

(** ** Properties of the process table and of [start] *)
Module RunnerFacts.
Import Runner.
Local Open Scope list_scope.

Lemma nth_error_update_nth_same {A} (n : nat) (f : A -> A) (l : list A) :
  nth_error (update_nth n f l) n = option_map f (nth_error l n).
Proof.
  revert l; induction n as [|n IH]; intros [|x t]; simpl; auto.
Qed.

Lemma nth_error_update_nth_other {A} (n m : nat) (f : A -> A) (l : list A) :
  n <> m -> nth_error (update_nth n f l) m = nth_error l m.
Proof.
  revert m l; induction n as [|n IH]; intros [|m] [|x t] Hne; simpl; auto;
    try congruence; apply IH; congruence.
Qed.

Lemma length_update_nth {A} (n : nat) (f : A -> A) (l : list A) :
  length (update_nth n f l) = length l.
Proof.
  revert l; induction n as [|n IH]; intros [|x t]; simpl; auto.
Qed.

Lemma nth_error_snoc {A} (l : list A) (x : A) :
  nth_error (l ++ [x]) (length l) = Some x.
Proof. induction l; simpl; auto. Qed.

Lemma nth_error_snoc_lt {A} (l : list A) (x : A) (n : nat) :
  n < length l -> nth_error (l ++ [x]) n = nth_error l n.
Proof. intros H; apply nth_error_app1; exact H. Qed.

(** A successful [writeFileSync] leaves an existing, writable file
    holding exactly the data; a created file is also readable. *)
Lemma write_file_sync_inl (f f' : file) (data : string) :
  write_file_sync f data = inl f' ->
  f_exists f' = true /\ f_content f' = data /\ f_writable f' = true /\
  f_readable f' = (if f_exists f then f_readable f else true).
Proof.
  unfold write_file_sync.
  destruct (f_exists f), (f_writable f), (f_parent f); intros H;
    try discriminate; injection H as <-; simpl; auto.
Qed.

Section WithCommand.
Variable command : string.
Variable debug : bool.

(** [start] unfolded: spawn, assign [process], write the PID file, then
    register the exit listener. *)
Lemma start_unfold (w : world) :
  start command debug w =
  match write_file_sync (pid_file w) (pid_to_string (length (procs w))) with
  | inr err => Thrown (spawned_world command debug w) err
  | inl f =>
      Normal (on_exit (length (procs w)) CbExitClear
                (set_pid_file f (spawned_world command debug w)))
  end.
Proof.
  unfold start, spawn, spawned_world; simpl.
  destruct (write_file_sync _ _); reflexivity.
Qed.

Lemma start_trace (w : world) :
  trace (outcome_world (start command debug w)) =
  trace w ++ [EvTask "start";
              EvSpawn (length (procs w)) "node" (start_options command debug)].
Proof.
  rewrite start_unfold; destruct (write_file_sync _ _); simpl;
    rewrite <- app_assoc; reflexivity.
Qed.

Lemma start_handle (w : world) :
  handle (outcome_world (start command debug w)) = Some (length (procs w)).
Proof.
  rewrite start_unfold; destruct (write_file_sync _ _); reflexivity.
Qed.

Lemma start_procs_length (w : world) :
  length (procs (outcome_world (start command debug w))) =
  S (length (procs w)).
Proof.
  rewrite start_unfold; destruct (write_file_sync _ _); simpl;
    unfold update_proc, set_procs; simpl;
    rewrite ?length_update_nth, length_app; simpl; lia.
Qed.

(** [gulp.start('start')] adds exactly the task, the spawn and possibly
    the runner's report of a thrown error. *)
Lemma gulp_start_start_trace (w : world) :
  exists extra,
    trace (gulp_start_start command debug w) =
    trace w ++ [EvTask "start";
                EvSpawn (length (procs w)) "node" (start_options command debug)]
            ++ extra /\
    (extra = [] \/ exists e, extra = [EvTaskError "start" e]).
Proof.
  unfold gulp_start_start.
  pose proof (start_trace w) as Ht.
  destruct (start command debug w) as [w'|w' e] eqn:E; simpl in Ht.
  - exists []; rewrite app_nil_r; auto.
  - exists [EvTaskError "start" e]; simpl; rewrite Ht, <- app_assoc.
    split; [reflexivity | right; eauto].
Qed.

Lemma gulp_start_start_handle (w : world) :
  handle (gulp_start_start command debug w) = Some (length (procs w)).
Proof.
  unfold gulp_start_start; pose proof (start_handle w) as H.
  destruct (start command debug w); exact H.
Qed.

Lemma gulp_start_start_lookup (w : world) :
  exists pr, lookup (length (procs w)) (gulp_start_start command debug w)
             = Some pr /\ p_cmd pr = "node".
Proof.
  unfold gulp_start_start; rewrite start_unfold.
  destruct (write_file_sync _ _); unfold lookup, spawned_world; simpl.
  - unfold update_proc, set_procs; simpl.
    rewrite nth_error_update_nth_same, nth_error_snoc; simpl; eauto.
  - rewrite nth_error_snoc; eauto.
Qed.

Lemma count_starts_app (a b : list event) :
  count_starts (a ++ b) = count_starts a + count_starts b.
Proof. unfold count_starts; rewrite filter_app, length_app; reflexivity. Qed.

Lemma gulp_start_start_count (w : world) :
  count_starts (trace (gulp_start_start command debug w)) =
  S (count_starts (trace w)).
Proof.
  destruct (gulp_start_start_trace w) as [extra [-> [-> | [e ->]]]];
    rewrite !count_starts_app; unfold count_starts; simpl; lia.
Qed.

Lemma run_cb_count (cb : callback) (w : world) :
  count_starts (trace (run_cb command debug cb w)) =
  count_starts (trace w) + cb_starts cb.
Proof.
  destruct cb; simpl.
  - rewrite count_starts_app; unfold count_starts; simpl; lia.
  - rewrite gulp_start_start_count; simpl; lia.
  - rewrite gulp_start_start_count; lia.
Qed.

Lemma run_cbs_count (cbs : list callback) (w : world) :
  count_starts (trace (run_cbs command debug cbs w)) =
  count_starts (trace w) + list_sum (map cb_starts cbs).
Proof.
  revert w; induction cbs as [|cb cbs IH]; intros w; simpl.
  - lia.
  - unfold run_cbs in *; simpl; rewrite IH, run_cb_count; lia.
Qed.

Lemma run_cb_prefix (cb : callback) (w : world) :
  exists s, trace (run_cb command debug cb w) = trace w ++ s.
Proof.
  destruct cb; simpl.
  - eauto.
  - destruct (gulp_start_start_trace (set_handle None w)) as [x [-> _]].
    simpl; eauto.
  - destruct (gulp_start_start_trace w) as [x [-> _]]; eauto.
Qed.

Lemma run_cbs_prefix (cbs : list callback) (w : world) :
  exists s, trace (run_cbs command debug cbs w) = trace w ++ s.
Proof.
  revert w; induction cbs as [|cb cbs IH]; intros w; unfold run_cbs in *; simpl.
  - exists []; rewrite app_nil_r; reflexivity.
  - destruct (run_cb_prefix cb w) as [s1 Hs1].
    destruct (IH (run_cb command debug cb w)) as [s2 Hs2].
    rewrite Hs2, Hs1, <- app_assoc; eauto.
Qed.

Lemma run_cbs_snoc (cbs : list callback) (cb : callback) (w : world) :
  run_cbs command debug (cbs ++ [cb]) w =
  run_cb command debug cb (run_cbs command debug cbs w).
Proof. unfold run_cbs; rewrite fold_left_app; reflexivity. Qed.

(** Exit listeners registered by [start] only log. *)
Lemma run_cbs_exit_clear (cbs : list callback) (w : world) :
  Forall (eq CbExitClear) cbs ->
  trace (run_cbs command debug cbs w) =
  trace w ++ repeat (EvLog "*** Process exited ***") (length cbs).
Proof.
  intros H; revert w; induction H as [|cb cbs Hcb H IH]; intros w;
    unfold run_cbs in *; simpl.
  - rewrite app_nil_r; reflexivity.
  - subst cb; simpl; rewrite IH; simpl; rewrite <- app_assoc; reflexivity.
Qed.

End WithCommand.

Lemma update_nth_snoc {A} (l : list A) (x : A) (f : A -> A) :
  update_nth (length l) f (l ++ [x]) = l ++ [f x].
Proof. induction l as [|y l IH]; simpl; [reflexivity | rewrite IH; reflexivity]. Qed.

Lemma filter_spawn_repeat_log (n : nat) (m : string) :
  filter is_spawn (repeat (EvLog m) n) = [].
Proof. induction n; simpl; auto. Qed.

Lemma lookup_update_proc_same (p : nat) (f : proc -> proc) (w : world) :
  lookup p (update_proc p f w) = option_map f (lookup p w).
Proof. apply nth_error_update_nth_same. Qed.

(** [restart] on a running process: signal it and wait for 'close'. *)
Lemma restart_running_unfold (command : string) (debug : bool) (w : world)
  (p : nat) (pr : proc) :
  handle w = Some p -> lookup p w = Some pr -> p_exit_code pr = None ->
  restart command debug w = kill_and_wait p (emit (EvTask "restart") w).
Proof.
  intros Hh Hl Hc; unfold restart.
  change (handle (emit (EvTask "restart") w)) with (handle w); rewrite Hh.
  change (lookup p (emit (EvTask "restart") w)) with (lookup p w).
  rewrite Hl, Hc; reflexivity.
Qed.

(** [restart] with no handle and an accessible PID file: after the
    [fs.access] callback, a [kill] helper runs and [process] points at it. *)
Lemma restart_pid_file_unfold (command : string) (debug : bool) (w : world) :
  handle w = None -> pending w = [] -> access_ok (pid_file w) = true ->
  access_done (restart command debug w) =
  mkWorld (Some (length (procs w)))
    (procs w ++ [mkProc "kill" [f_content (pid_file w)] None [] []
                   [CbStdoutStart]])
    (pid_file w) (build_file w) []
    (trace w ++ [EvTask "restart";
                 EvSpawn (length (procs w)) "kill" [f_content (pid_file w)]]).
Proof.
  intros Hh Hp Ha.
  destruct w as [h ps pf bf pd tr]; simpl in *; subst h pd.
  unfold restart, access_done, access_callback; simpl; rewrite Ha; simpl.
  unfold on_stdout_close, update_proc, set_procs; simpl.
  rewrite update_nth_snoc, <- app_assoc; reflexivity.
Qed.

End RunnerFacts.

(** ** The claims *)
Module Claims.
Import Runner RunnerFacts Demo.
Local Open Scope list_scope.

(** C9: for every JavaScript value, [adaptPath] returns its argument
    unchanged and never throws: [typeof] never yields "String", and
    [!typeof path == 'Array'] compares [false] with [NaN]. *)
Theorem adaptPath_identity (v : Js.value) : Js.adaptPath v = Js.Ok v.
Proof. destruct v; reflexivity. Qed.

(** C5: [start] spawns [node] with exactly [[command]] when debug is off
    and [["--inspect=[::]:9229"; command]] when it is on. *)
Theorem start_spawn_args (command : string) (debug : bool) (w : world) :
  trace (outcome_world (start command debug w)) =
  trace w ++ [EvTask "start";
              EvSpawn (length (procs w)) "node"
                (if debug then ["--inspect=[::]:9229"; command]
                 else [command])].
Proof. rewrite start_trace; destruct debug; reflexivity. Qed.

(** C2: whatever the PID file held before, once [start] completes the
    PID file holds exactly the identifier of the process it spawned. *)
Theorem start_writes_pid (command : string) (debug : bool) (w w' : world) :
  start command debug w = Normal w' ->
  exists q,
    trace w' = trace w ++ [EvTask "start";
                           EvSpawn q "node" (start_options command debug)] /\
    f_exists (pid_file w') = true /\
    f_content (pid_file w') = pid_to_string q.
Proof.
  rewrite start_unfold; intros H.
  destruct (write_file_sync _ _) as [f|e] eqn:E; [|discriminate].
  injection H as <-.
  exists (length (procs w)).
  destruct (write_file_sync_inl _ _ _ E) as [Hex [Hc _]]; simpl.
  rewrite <- app_assoc; auto.
Qed.

Lemma start_writes_pid_witness :
  start "server.js" false w_running =
    Normal (outcome_world (start "server.js" false w_running)) /\
  exists q,
    trace (outcome_world (start "server.js" false w_running)) =
      trace w_running ++ [EvTask "start";
                          EvSpawn q "node" (start_options "server.js" false)] /\
    f_exists (pid_file (outcome_world (start "server.js" false w_running)))
      = true /\
    f_content (pid_file (outcome_world (start "server.js" false w_running)))
      = pid_to_string q.
Proof.
  split; [reflexivity|].
  apply (start_writes_pid "server.js" false w_running); reflexivity.
Defined.

(** C4: when the handle's exit status is already set, [restart] invokes
    [start] at once and signals nothing. *)
Theorem restart_exited_starts (command : string) (debug : bool) (w : world)
  (p : nat) (pr : proc) (c : Z) :
  handle w = Some p -> lookup p w = Some pr -> p_exit_code pr = Some c ->
  restart command debug w =
    gulp_start_start command debug (emit (EvTask "restart") w) /\
  exists extra,
    trace (restart command debug w) =
      trace w ++ [EvTask "restart"; EvTask "start";
                  EvSpawn (length (procs w)) "node"
                    (start_options command debug)] ++ extra /\
    filter is_signal extra = [].
Proof.
  intros Hh Hl Hc.
  assert (Hr : restart command debug w =
               gulp_start_start command debug (emit (EvTask "restart") w)).
  { unfold restart.
    change (handle (emit (EvTask "restart") w)) with (handle w); rewrite Hh.
    change (lookup p (emit (EvTask "restart") w)) with (lookup p w).
    rewrite Hl, Hc; reflexivity. }
  split; [exact Hr|].
  rewrite Hr.
  destruct (gulp_start_start_trace command debug (emit (EvTask "restart") w))
    as [extra [Ht Hx]].
  exists extra; rewrite Ht; simpl; split.
  - rewrite <- !app_assoc; reflexivity.
  - destruct Hx as [-> | [e ->]]; reflexivity.
Qed.

Lemma restart_exited_starts_witness :
  restart "server.js" false w_exited =
    gulp_start_start "server.js" false (emit (EvTask "restart") w_exited) /\
  exists extra,
    trace (restart "server.js" false w_exited) =
      trace w_exited ++ [EvTask "restart"; EvTask "start";
                         EvSpawn (length (procs w_exited)) "node"
                           (start_options "server.js" false)] ++ extra /\
    filter is_signal extra = [].
Proof.
  apply (restart_exited_starts "server.js" false w_exited 0
           (with_exit_code (Some 1%Z) worker) 1%Z);
    reflexivity.
Defined.

(** C3: with no handle and a PID file that is missing or fails the
    read/write access check, [restart] ends, once its [fs.access] check
    completes, with one reported error and no other change. *)
Theorem restart_no_pid_file (command : string) (debug : bool) (w : world) :
  handle w = None -> pending w = [] -> access_ok (pid_file w) = false ->
  access_done (restart command debug w) =
    emit (EvError "No application running or PID error")
      (emit (EvTask "restart") w).
Proof.
  intros Hh Hp Ha.
  destruct w as [h ps pf bf pd tr]; simpl in *; subst h pd.
  unfold restart, access_done, access_callback; simpl.
  rewrite Ha; reflexivity.
Qed.

Lemma restart_no_pid_file_witness :
  access_done (restart "server.js" false w_no_pid_file) =
    emit (EvError "No application running or PID error")
      (emit (EvTask "restart") w_no_pid_file).
Proof.
  apply (restart_no_pid_file "server.js" false w_no_pid_file); reflexivity.
Defined.

(** C8: [write-build-done] always returns normally; when writing the
    build file fails, the error is reported and nothing else happens. *)
Theorem write_build_done_catches (date : string) (w : world) :
  (exists w', write_build_done date w = Normal w') /\
  (forall e, write_file_sync (build_file w) date = inr e ->
     write_build_done date w =
       Normal (emit (EvError ("Build file not created: " ++ e)%string) w)).
Proof.
  unfold write_build_done; split.
  - destruct (write_file_sync _ _); eauto.
  - intros e ->; reflexivity.
Qed.

Lemma write_build_done_catches_witness :
  write_build_done "Sat Oct 17 2026" w_ro_files =
    Normal (emit (EvError "Build file not created: Error: EACCES: permission denied")
              w_ro_files).
Proof.
  apply (proj2 (write_build_done_catches "Sat Oct 17 2026" w_ro_files));
    reflexivity.
Defined.

(** C1: [restart] on a running worker [p] signals [p] and spawns nothing
    itself; it registers a 'close' listener on [p], and the new worker is
    spawned when that 'close' event fires. The 'exit' event alone (whose
    listeners are those [start] registers) spawns nothing. *)
Theorem restart_signals_before_spawn (command : string) (debug : bool)
  (w : world) (p : nat) (pr : proc) :
  handle w = Some p -> lookup p w = Some pr -> p_exit_code pr = None ->
  let w' := restart command debug w in
  trace w' = trace w ++ [EvTask "restart"; EvSignal p] /\
  handle w' = Some p /\
  (exists pr', lookup p w' = Some pr' /\
     p_on_close pr' = p_on_close pr ++ [CbCloseRestart] /\
     p_on_exit pr' = p_on_exit pr) /\
  (Forall (eq CbExitClear) (p_on_exit pr) -> forall c,
     exists s, trace (proc_exit command debug p c w') = trace w' ++ s /\
               filter is_spawn s = []) /\
  (exists s, trace (proc_close command debug p w') = trace w' ++ s /\
     exists q args, In (EvSpawn q "node" args) s).
Proof.
  intros Hh Hl Hc w'.
  assert (Hw' : w' = kill_and_wait p (emit (EvTask "restart") w))
    by (apply (restart_running_unfold command debug w p pr); assumption).
  set (pr' := mkProc (p_cmd pr) (p_args pr) (p_exit_code pr) (p_on_exit pr)
                (p_on_close pr ++ [CbCloseRestart]) (p_on_stdout_close pr)).
  assert (Hl' : lookup p w' = Some pr').
  { rewrite Hw'; unfold kill_and_wait, on_close.
    rewrite lookup_update_proc_same; change (lookup p (emit (EvSignal p)
      (emit (EvTask "restart") w))) with (lookup p w); rewrite Hl; reflexivity. }
  split; [rewrite Hw'; simpl; rewrite <- app_assoc; reflexivity|].
  split; [rewrite Hw'; exact Hh|].
  split; [exists pr'; auto|].
  split.
  - intros Hexit c; unfold proc_exit; rewrite Hl'; simpl.
    rewrite (run_cbs_exit_clear command debug _ _ Hexit).
    eexists; split; [reflexivity | apply filter_spawn_repeat_log].
  - unfold proc_close; rewrite Hl'; simpl.
    rewrite run_cbs_snoc.
    destruct (run_cbs_prefix command debug (p_on_close pr) w') as [s1 Hs1].
    simpl.
    destruct (gulp_start_start_trace command debug
                (set_handle None (run_cbs command debug (p_on_close pr) w')))
      as [extra [Ht _]].
    rewrite Ht; simpl; rewrite Hs1, <- app_assoc.
    eexists; split; [reflexivity|].
    do 2 eexists; apply in_or_app; right; simpl; right; left; reflexivity.
Qed.

Lemma restart_signals_before_spawn_witness :
  let w' := restart "server.js" false w_running in
  trace w' = trace w_running ++ [EvTask "restart"; EvSignal 0] /\
  handle w' = Some 0 /\
  (exists pr', lookup 0 w' = Some pr' /\
     p_on_close pr' = p_on_close worker ++ [CbCloseRestart] /\
     p_on_exit pr' = p_on_exit worker) /\
  (Forall (eq CbExitClear) (p_on_exit worker) -> forall c,
     exists s, trace (proc_exit "server.js" false 0 c w') = trace w' ++ s /\
               filter is_spawn s = []) /\
  (exists s, trace (proc_close "server.js" false 0 w') = trace w' ++ s /\
     exists q args, In (EvSpawn q "node" args) s).
Proof.
  apply (restart_signals_before_spawn "server.js" false w_running 0 worker);
    reflexivity.
Defined.

(** C6 (as amended): a [start] whose PID-file write succeeds registers an
    exit listener on the process it spawned; when that process exits, the
    notice is logged and [process] becomes [null]. A [start] whose write
    throws has spawned the process and pointed [process] at it, but
    registered no listener: its exit logs nothing and leaves [process]
    on it. *)
Theorem start_registers_exit_observer (command : string) (debug : bool)
  (w : world) :
  let q := length (procs w) in
  (forall w', start command debug w = Normal w' ->
     handle w' = Some q /\
     (exists pr, lookup q w' = Some pr /\ p_on_exit pr = [CbExitClear]) /\
     forall c,
       handle (proc_exit command debug q c w') = None /\
       trace (proc_exit command debug q c w') =
         trace w' ++ [EvLog "*** Process exited ***"]) /\
  (forall w' e, start command debug w = Thrown w' e ->
     handle w' = Some q /\
     lookup q w' = Some (mkProc "node" (start_options command debug) None
                           [] [] []) /\
     forall c,
       handle (proc_exit command debug q c w') = Some q /\
       trace (proc_exit command debug q c w') = trace w').
Proof.
  cbv zeta; rewrite start_unfold.
  set (q := length (procs w)).
  assert (Hs : lookup q (spawned_world command debug w) =
               Some (mkProc "node" (start_options command debug) None
                       [] [] []))
    by (unfold lookup, spawned_world; simpl; subst q; apply nth_error_snoc).
  split.
  - intros w' H.
    destruct (write_file_sync _ _) as [f|e]; [|discriminate].
    injection H as <-.
    set (np := mkProc "node" (start_options command debug) None [CbExitClear]
                 [] []).
    assert (Hl : lookup q (on_exit q CbExitClear
                   (set_pid_file f (spawned_world command debug w))) = Some np).
    { unfold on_exit; rewrite lookup_update_proc_same.
      change (lookup q (set_pid_file f (spawned_world command debug w)))
        with (lookup q (spawned_world command debug w)).
      rewrite Hs; reflexivity. }
    split; [reflexivity|].
    split; [exists np; auto|].
    intros c; unfold proc_exit; rewrite Hl; simpl; split; reflexivity.
  - intros w' e H.
    destruct (write_file_sync _ _) as [f|e']; [discriminate|].
    injection H as <- _.
    split; [reflexivity|].
    split; [exact Hs|].
    intros c; unfold proc_exit; rewrite Hs; simpl; split; reflexivity.
Qed.

Lemma start_registers_exit_observer_witness :
  (let w' := outcome_world (start "server.js" true w_pid_file) in
   handle w' = Some 0 /\
   (exists pr, lookup 0 w' = Some pr /\ p_on_exit pr = [CbExitClear]) /\
   forall c,
     handle (proc_exit "server.js" true 0 c w') = None /\
     trace (proc_exit "server.js" true 0 c w') =
       trace w' ++ [EvLog "*** Process exited ***"]) /\
  (let w' := outcome_world (start "server.js" false w_ro_files) in
   handle w' = Some 0 /\
   lookup 0 w' = Some (mkProc "node" ["server.js"] None [] [] []) /\
   forall c,
     handle (proc_exit "server.js" false 0 c w') = Some 0 /\
     trace (proc_exit "server.js" false 0 c w') = trace w').
Proof.
  split.
  - apply (proj1 (start_registers_exit_observer "server.js" true w_pid_file));
      reflexivity.
  - apply (proj2 (start_registers_exit_observer "server.js" false w_ro_files)
             _ "Error: EACCES: permission denied"); reflexivity.
Defined.

(** C6 counterexample: with a read-only PID file, [writeFileSync] throws
    before [process.on('exit', ...)] runs. The spawned worker has no exit
    listener: when it exits nothing is logged and [process] keeps pointing
    at it. *)
Lemma start_readonly_pid_no_exit_observer :
  let o := start "server.js" false w_ro_files in
  o = Thrown (outcome_world o) "Error: EACCES: permission denied" /\
  lookup 0 (outcome_world o) = Some (mkProc "node" ["server.js"] None [] [] []) /\
  handle (proc_exit "server.js" false 0 (Some 0%Z) (outcome_world o)) = Some 0 /\
  trace (proc_exit "server.js" false 0 (Some 0%Z) (outcome_world o)) =
    trace (outcome_world o).
Proof. repeat split; reflexivity. Qed.

(** C7: one [restart] leads to exactly one [start] once the previous
    process is known to be gone, and to none when the PID file cannot be
    used. Running worker: no [start] before its 'close' event; that event
    runs this restart's listener (one [start]) besides whatever listeners
    were already registered (none on a worker as [start] leaves it).
    Exited handle: one [start] at once. No handle, usable PID file: none
    until the [kill] helper's stdout closes, then one. No handle, unusable
    PID file: none. *)
Theorem restart_starts_once (command : string) (debug : bool) (w : world) :
  (forall p pr, handle w = Some p -> lookup p w = Some pr ->
     p_exit_code pr = None ->
     count_starts (trace (restart command debug w)) = count_starts (trace w) /\
     count_starts (trace (proc_close command debug p (restart command debug w)))
       = count_starts (trace w) + list_sum (map cb_starts (p_on_close pr)) + 1)
  /\
  (forall p pr c, handle w = Some p -> lookup p w = Some pr ->
     p_exit_code pr = Some c ->
     count_starts (trace (restart command debug w)) =
       count_starts (trace w) + 1)
  /\
  (handle w = None -> pending w = [] -> access_ok (pid_file w) = true ->
     let w1 := access_done (restart command debug w) in
     count_starts (trace w1) = count_starts (trace w) /\
     count_starts (trace (proc_stdout_close command debug
                            (length (procs w)) w1)) =
       count_starts (trace w) + 1)
  /\
  (handle w = None -> pending w = [] -> access_ok (pid_file w) = false ->
     count_starts (trace (access_done (restart command debug w))) =
       count_starts (trace w)).
Proof.
  split; [|split; [|split]].
  - intros p pr Hh Hl Hc.
    rewrite (restart_running_unfold command debug w p pr Hh Hl Hc).
    split.
    + simpl; rewrite !count_starts_app; unfold count_starts; simpl; lia.
    + unfold proc_close, kill_and_wait, on_close.
      rewrite lookup_update_proc_same.
      change (lookup p (emit (EvSignal p) (emit (EvTask "restart") w)))
        with (lookup p w); rewrite Hl; simpl.
      rewrite run_cbs_count, map_app, list_sum_app; simpl.
      rewrite !count_starts_app; unfold count_starts; simpl; lia.
  - intros p pr c Hh Hl Hc.
    destruct (restart_exited_starts command debug w p pr c Hh Hl Hc)
      as [-> _].
    rewrite gulp_start_start_count; simpl.
    rewrite count_starts_app; unfold count_starts; simpl; lia.
  - intros Hh Hp Ha; cbv zeta.
    rewrite (restart_pid_file_unfold command debug w Hh Hp Ha).
    split.
    + simpl; rewrite count_starts_app; unfold count_starts; simpl; lia.
    + unfold proc_stdout_close, lookup; simpl; rewrite nth_error_snoc; simpl.
      unfold run_cbs; simpl; rewrite gulp_start_start_count; simpl.
      rewrite count_starts_app; unfold count_starts; simpl; lia.
  - intros Hh Hp Ha.
    rewrite (restart_no_pid_file command debug w Hh Hp Ha); simpl.
    rewrite <- app_assoc, count_starts_app; unfold count_starts; simpl; lia.
Qed.

Lemma restart_starts_once_witness :
  count_starts (trace (restart "server.js" false w_running)) = 0 /\
  count_starts (trace (proc_close "server.js" false 0
                         (restart "server.js" false w_running))) = 1 /\
  count_starts (trace (restart "server.js" false w_exited)) = 1 /\
  count_starts (trace (proc_stdout_close "server.js" false
                         (length (procs w_pid_file))
                         (access_done (restart "server.js" false w_pid_file))))
    = 1 /\
  count_starts (trace (access_done (restart "server.js" false w_no_pid_file)))
    = 0.
Proof.
  destruct (restart_starts_once "server.js" false w_running) as [Hr _].
  destruct (restart_starts_once "server.js" false w_exited) as [_ [He _]].
  destruct (restart_starts_once "server.js" false w_pid_file)
    as [_ [_ [Hp _]]].
  destruct (restart_starts_once "server.js" false w_no_pid_file)
    as [_ [_ [_ Hn]]].
  destruct (Hr 0 worker eq_refl eq_refl eq_refl) as [Hr1 Hr2].
  split; [|split; [|split; [|split]]].
  - rewrite Hr1; reflexivity.
  - rewrite Hr2; reflexivity.
  - rewrite (He 0 (with_exit_code (Some 1%Z) worker) 1%Z eq_refl eq_refl
               eq_refl); reflexivity.
  - destruct (Hp eq_refl eq_refl eq_refl) as [_ Hp2]; rewrite Hp2;
      reflexivity.
  - rewrite (Hn eq_refl eq_refl eq_refl); reflexivity.
Defined.

(** C10: with no handle and a usable PID file, [restart] points the shared
    [process] variable at the [kill] helper it spawns. The helper carries
    no 'exit' or 'close' listener, so its own exit and close leave
    [process] on it; only the [start] run when its stdout closes replaces
    it, with the new [node] worker. *)
Theorem restart_pid_branch_handle (command : string) (debug : bool)
  (w : world) :
  handle w = None -> pending w = [] -> access_ok (pid_file w) = true ->
  let h := length (procs w) in
  let w1 := access_done (restart command debug w) in
  handle w1 = Some h /\
  lookup h w1 = Some (mkProc "kill" [f_content (pid_file w)] None [] []
                        [CbStdoutStart]) /\
  (forall c, handle (proc_exit command debug h c w1) = Some h) /\
  handle (proc_close command debug h w1) = Some h /\
  exists pr,
    handle (proc_stdout_close command debug h w1) = Some (S h) /\
    lookup (S h) (proc_stdout_close command debug h w1) = Some pr /\
    p_cmd pr = "node".
Proof.
  intros Hh Hp Ha; cbv zeta.
  rewrite (restart_pid_file_unfold command debug w Hh Hp Ha).
  assert (Hl : lookup (length (procs w))
     (mkWorld (Some (length (procs w)))
        (procs w ++ [mkProc "kill" [f_content (pid_file w)] None [] []
                       [CbStdoutStart]])
        (pid_file w) (build_file w) []
        (trace w ++ [EvTask "restart";
                     EvSpawn (length (procs w)) "kill"
                       [f_content (pid_file w)]])) =
     Some (mkProc "kill" [f_content (pid_file w)] None [] [] [CbStdoutStart]))
    by apply nth_error_snoc.
  split; [reflexivity|].
  split; [exact Hl|].
  split; [intros c; unfold proc_exit; rewrite Hl; reflexivity|].
  split; [unfold proc_close; rewrite Hl; reflexivity|].
  unfold proc_stdout_close; rewrite Hl; unfold run_cbs; simpl.
  match goal with |- context [gulp_start_start command debug ?w0] =>
    destruct (gulp_start_start_lookup command debug w0) as [pr [Hpr Hc]];
    pose proof (gulp_start_start_handle command debug w0) as Hhd
  end.
  simpl in Hpr, Hhd; rewrite length_app, Nat.add_comm in Hpr, Hhd; simpl in Hpr, Hhd.
  exists pr; auto.
Qed.

Lemma restart_pid_branch_handle_witness :
  let h := length (procs w_pid_file) in
  let w1 := access_done (restart "server.js" false w_pid_file) in
  handle w1 = Some h /\
  lookup h w1 = Some (mkProc "kill" [f_content (pid_file w_pid_file)] None
                        [] [] [CbStdoutStart]) /\
  (forall c, handle (proc_exit "server.js" false h c w1) = Some h) /\
  handle (proc_close "server.js" false h w1) = Some h /\
  exists pr,
    handle (proc_stdout_close "server.js" false h w1) = Some (S h) /\
    lookup (S h) (proc_stdout_close "server.js" false h w1) = Some pr /\
    p_cmd pr = "node".
Proof.
  apply (restart_pid_branch_handle "server.js" false w_pid_file); reflexivity.
Defined.

End Claims.

(** ** Further properties of the tasks *)
Module Extras.
Import Runner RunnerFacts Demo Pipeline.
Local Open Scope list_scope.

Lemma lookup_kill_and_wait (p : nat) (w : world) :
  lookup p (kill_and_wait p w) =
  option_map (fun pr => mkProc (p_cmd pr) (p_args pr) (p_exit_code pr)
                (p_on_exit pr) (p_on_close pr ++ [CbCloseRestart])
                (p_on_stdout_close pr)) (lookup p w).
Proof. apply nth_error_update_nth_same. Qed.

Lemma run_cbs_exit_clear_handle (command : string) (debug : bool)
  (cbs : list callback) (w : world) :
  cbs <> [] -> Forall (eq CbExitClear) cbs ->
  handle (run_cbs command debug cbs w) = None.
Proof.
  intros Hne H; revert w Hne; induction H as [|cb cbs Hcb H IH]; intros w Hne.
  - congruence.
  - subst cb; unfold run_cbs in *; simpl.
    destruct cbs as [|cb' cbs'].
    + reflexivity.
    + apply IH; discriminate.
Qed.

Lemma procs_length_run_cb (command : string) (debug : bool) (cb : callback)
  (w : world) :
  length (procs w) <= length (procs (run_cb command debug cb w)).
Proof.
  destruct cb; simpl; try lia; unfold gulp_start_start.
  - pose proof (start_procs_length command debug (set_handle None w)) as H.
    destruct (start _ _ _); simpl in *; lia.
  - pose proof (start_procs_length command debug w) as H.
    destruct (start _ _ _); simpl in *; lia.
Qed.

Lemma procs_length_run_cbs (command : string) (debug : bool)
  (cbs : list callback) (w : world) :
  length (procs w) <= length (procs (run_cbs command debug cbs w)).
Proof.
  revert w; induction cbs as [|cb cbs IH]; intros w; unfold run_cbs in *;
    simpl; [lia|].
  specialize (IH (run_cb command debug cb w)).
  pose proof (procs_length_run_cb command debug cb w); lia.
Qed.

Lemma gulp_start_start_new_worker (command : string) (debug : bool)
  (w : world) :
  exists cbs, lookup (length (procs w)) (gulp_start_start command debug w) =
    Some (mkProc "node" (start_options command debug) None cbs [] []).
Proof.
  unfold gulp_start_start; rewrite start_unfold.
  destruct (write_file_sync _ _); unfold lookup, spawned_world; simpl.
  - unfold update_proc, set_procs; simpl.
    rewrite nth_error_update_nth_same, nth_error_snoc; simpl; eauto.
  - rewrite nth_error_snoc; eauto.
Qed.

Lemma replace_backslashes_length (s : string) :
  String.length (replace_backslashes s) = String.length s.
Proof. induction s; simpl; auto. Qed.

Lemma replace_backslashes_get (s : string) (i : nat) :
  String.get i (replace_backslashes s) =
  option_map (fun c => if Ascii.eqb c "\"%char then "/"%char else c)
    (String.get i s).
Proof.
  revert i; induction s as [|c s IH]; intros [|i]; simpl; auto.
Qed.

(** [start] while a worker runs does not stop it: no signal is sent, the
    old process is left as it was, and [process] now refers to the new
    worker only. *)
Theorem start_leaves_previous_worker (command : string) (debug : bool)
  (w : world) (p : nat) (pr : proc) :
  handle w = Some p -> lookup p w = Some pr ->
  let w' := outcome_world (start command debug w) in
  handle w' = Some (length (procs w)) /\
  lookup p w' = Some pr /\
  filter is_signal (trace w') = filter is_signal (trace w).
Proof.
  intros Hh Hl; cbv zeta.
  assert (Hlt : p < length (procs w))
    by (apply nth_error_Some; unfold lookup in Hl; congruence).
  split; [apply start_handle|].
  split.
  - rewrite start_unfold; destruct (write_file_sync _ _);
      unfold lookup, spawned_world; simpl.
    + unfold update_proc, set_procs; simpl.
      rewrite nth_error_update_nth_other by lia.
      rewrite nth_error_snoc_lt by exact Hlt; exact Hl.
    + rewrite nth_error_snoc_lt by exact Hlt; exact Hl.
  - rewrite start_trace, filter_app; simpl; rewrite app_nil_r; reflexivity.
Qed.

Lemma start_leaves_previous_worker_witness :
  let w' := outcome_world (start "server.js" false w_running) in
  handle w' = Some (length (procs w_running)) /\
  lookup 0 w' = Some worker /\
  filter is_signal (trace w') = filter is_signal (trace w_running).
Proof.
  apply (start_leaves_previous_worker "server.js" false w_running 0 worker);
    reflexivity.
Defined.

(** The exit listener of [start] clears [process] whatever it refers to at
    that time: the exit of an older worker also drops the handle of a
    newer one. *)
Theorem exit_listener_clears_any_handle (command : string) (debug : bool)
  (w : world) (p : nat) (pr : proc) (c : option Z) :
  lookup p w = Some pr -> p_on_exit pr <> [] ->
  Forall (eq CbExitClear) (p_on_exit pr) ->
  handle (proc_exit command debug p c w) = None.
Proof.
  intros Hl Hne Hall; unfold proc_exit; rewrite Hl.
  apply run_cbs_exit_clear_handle; assumption.
Qed.

(** Two [start]s in a row, then the first worker exits: [process] is
    [null] although the second worker still runs. *)
Lemma exit_listener_clears_any_handle_witness :
  let w2 := outcome_world (start "server.js" false
              (outcome_world (start "server.js" false w_pid_file))) in
  handle w2 = Some 1 /\
  lookup 1 w2 = Some (mkProc "node" ["server.js"] None [CbExitClear] [] []) /\
  handle (proc_exit "server.js" false 0 (Some 0%Z) w2) = None.
Proof.
  split; [reflexivity|]; split; [reflexivity|].
  apply (exit_listener_clears_any_handle "server.js" false _ 0
           (mkProc "node" ["server.js"] None [CbExitClear] [] []));
    [reflexivity | discriminate | repeat constructor].
Defined.

(** Two [restart]s before the worker closes both signal it and both wait
    for its 'close': that event then runs [start] twice. *)
Theorem double_restart_two_starts (command : string) (debug : bool)
  (w : world) (p : nat) (pr : proc) :
  handle w = Some p -> lookup p w = Some pr -> p_exit_code pr = None ->
  let w2 := restart command debug (restart command debug w) in
  filter is_signal (trace w2) =
    filter is_signal (trace w) ++ [EvSignal p; EvSignal p] /\
  count_starts (trace w2) = count_starts (trace w) /\
  count_starts (trace (proc_close command debug p w2)) =
    count_starts (trace w) + list_sum (map cb_starts (p_on_close pr)) + 2.
Proof.
  intros Hh Hl Hc; cbv zeta.
  set (pr1 := mkProc (p_cmd pr) (p_args pr) (p_exit_code pr) (p_on_exit pr)
                (p_on_close pr ++ [CbCloseRestart]) (p_on_stdout_close pr)).
  rewrite (restart_running_unfold command debug w p pr Hh Hl Hc).
  assert (Hl1 : lookup p (kill_and_wait p (emit (EvTask "restart") w)) = Some pr1)
    by (rewrite lookup_kill_and_wait; change (lookup p (emit (EvTask "restart") w))
          with (lookup p w); rewrite Hl; reflexivity).
  rewrite (restart_running_unfold command debug
            (kill_and_wait p (emit (EvTask "restart") w)) p pr1 Hh Hl1 Hc).
  split; [|split].
  - simpl; rewrite !filter_app; simpl; rewrite <- !app_assoc; reflexivity.
  - simpl; rewrite !count_starts_app; unfold count_starts; simpl; lia.
  - unfold proc_close; rewrite lookup_kill_and_wait.
    change (lookup p (emit (EvTask "restart")
              (kill_and_wait p (emit (EvTask "restart") w))))
      with (lookup p (kill_and_wait p (emit (EvTask "restart") w))).
    rewrite Hl1; simpl.
    rewrite run_cbs_count, !map_app, !list_sum_app; simpl.
    rewrite !count_starts_app; unfold count_starts; simpl; lia.
Qed.

Lemma double_restart_two_starts_witness :
  let w2 := restart "server.js" false (restart "server.js" false w_running) in
  filter is_signal (trace w2) = [EvSignal 0; EvSignal 0] /\
  count_starts (trace w2) = 0 /\
  count_starts (trace (proc_close "server.js" false 0 w2)) = 2.
Proof.
  destruct (double_restart_two_starts "server.js" false w_running 0 worker
              eq_refl eq_refl eq_refl) as [H1 [H2 H3]].
  split; [rewrite H1|split; [rewrite H2|rewrite H3]]; reflexivity.
Defined.

(** PID file round trip: after a [start] that completes, a controller
    with no handle (a later gulp process) whose [restart] finds the PID
    file runs [kill] on exactly the identifier that [start] wrote. *)
Theorem pid_file_round_trip (command : string) (debug : bool)
  (w w' : world) :
  start command debug w = Normal w' ->
  (f_exists (pid_file w) = false \/ f_readable (pid_file w) = true) ->
  pending w = [] ->
  lookup (S (length (procs w)))
    (access_done (restart command debug (set_handle None w'))) =
  Some (mkProc "kill" [pid_to_string (length (procs w))] None [] []
          [CbStdoutStart]).
Proof.
  intros Hs Hr Hp.
  pose proof (start_procs_length command debug w) as Hlen.
  rewrite Hs in Hlen; simpl in Hlen.
  rewrite start_unfold in Hs.
  destruct (write_file_sync _ _) as [f|e] eqn:E; [|discriminate].
  injection Hs as <-.
  assert (Hf : f_content f = pid_to_string (length (procs w)) /\
               access_ok f = true).
  { destruct (write_file_sync_inl _ _ _ E) as [He [Hc [Hw Hrd]]].
    split; [exact Hc|]; unfold access_ok; rewrite He, Hw, Hrd.
    destruct (f_exists (pid_file w)); [|reflexivity].
    destruct Hr as [Hr|Hr]; [discriminate | rewrite Hr; reflexivity]. }
  destruct Hf as [Hfc Hfa].
  rewrite (restart_pid_file_unfold command debug
    (set_handle None (on_exit (length (procs w)) CbExitClear
       (set_pid_file f (spawned_world command debug w)))) eq_refl Hp Hfa).
  clear Hlen.
  assert (Hn : forall (l : list proc) (x : proc),
             length l = S (length (procs w)) ->
             nth_error (l ++ [x]) (S (length (procs w))) = Some x)
    by (intros l x H; rewrite <- H; apply nth_error_snoc).
  unfold lookup, on_exit, update_proc, set_procs, spawned_world, set_handle,
    set_pid_file, emit; cbn [procs pid_file].
  unfold set_procs; cbn [procs]; rewrite update_nth_snoc, Hfc.
  apply Hn; rewrite length_app; simpl; lia.
Qed.

Lemma pid_file_round_trip_witness :
  lookup 1 (access_done (restart "server.js" false
    (set_handle None (outcome_world (start "server.js" false w_pid_file))))) =
  Some (mkProc "kill" ["0"] None [] [] [CbStdoutStart]).
Proof.
  apply (pid_file_round_trip "server.js" false w_pid_file); auto.
Defined.

(** [restart] never writes the PID file itself: with no handle, neither
    the task nor its [fs.access] callback changes it, and on a running
    worker only the [start] run on 'close' will. *)
Theorem restart_keeps_pid_file (command : string) (debug : bool)
  (w : world) :
  (handle w = None ->
     pid_file (restart command debug w) = pid_file w /\
     pid_file (access_done (restart command debug w)) = pid_file w) /\
  (forall p pr, handle w = Some p -> lookup p w = Some pr ->
     p_exit_code pr = None -> pid_file (restart command debug w) = pid_file w).
Proof.
  split.
  - intros Hh.
    assert (Hr : pid_file (restart command debug w) = pid_file w)
      by (unfold restart; simpl; rewrite Hh; reflexivity).
    split; [exact Hr|].
    unfold access_done.
    destruct (pending (restart command debug w)) as [|[] rest]; [exact Hr|].
    unfold access_callback; simpl.
    destruct (access_ok _); simpl; exact Hr.
  - intros p pr Hh Hl Hc.
    rewrite (restart_running_unfold command debug w p pr Hh Hl Hc).
    reflexivity.
Qed.

Lemma restart_keeps_pid_file_witness :
  pid_file (access_done (restart "server.js" false w_pid_file)) =
    pid_file w_pid_file /\
  pid_file (restart "server.js" false w_running) = pid_file w_running.
Proof.
  destruct (restart_keeps_pid_file "server.js" false w_pid_file) as [H1 _].
  destruct (restart_keeps_pid_file "server.js" false w_running) as [_ H2].
  split; [apply (H1 eq_refl) | apply (H2 0 worker); reflexivity].
Defined.

(** Once the signalled worker's 'close' event has run, [process] refers
    to a newly spawned [node] worker, not to the old one. *)
Theorem restart_close_new_worker (command : string) (debug : bool)
  (w : world) (p : nat) (pr : proc) :
  handle w = Some p -> lookup p w = Some pr -> p_exit_code pr = None ->
  let w2 := proc_close command debug p (restart command debug w) in
  exists q cbs,
    handle w2 = Some q /\ q <> p /\
    lookup q w2 = Some (mkProc "node" (start_options command debug) None
                          cbs [] []).
Proof.
  intros Hh Hl Hc; cbv zeta.
  assert (Hlt : p < length (procs w))
    by (apply nth_error_Some; unfold lookup in Hl; congruence).
  rewrite (restart_running_unfold command debug w p pr Hh Hl Hc).
  unfold proc_close; rewrite lookup_kill_and_wait.
  change (lookup p (emit (EvTask "restart") w)) with (lookup p w).
  rewrite Hl; simpl; rewrite run_cbs_snoc; simpl.
  set (w3 := run_cbs command debug (p_on_close pr)
               (kill_and_wait p (emit (EvTask "restart") w))).
  pose proof (procs_length_run_cbs command debug (p_on_close pr)
                (kill_and_wait p (emit (EvTask "restart") w))) as Hg.
  fold w3 in Hg.
  unfold kill_and_wait, on_close, update_proc in Hg; simpl in Hg;
    rewrite length_update_nth in Hg.
  destruct (gulp_start_start_new_worker command debug (set_handle None w3))
    as [cbs Hq].
  exists (length (procs w3)), cbs.
  split; [exact (gulp_start_start_handle command debug (set_handle None w3))|].
  split; [simpl in *; lia | exact Hq].
Qed.

Lemma restart_close_new_worker_witness :
  let w2 := proc_close "server.js" false 0 (restart "server.js" false w_running) in
  exists q cbs,
    handle w2 = Some q /\ q <> 0 /\
    lookup q w2 = Some (mkProc "node" (start_options "server.js" false) None
                          cbs [] []).
Proof.
  apply (restart_close_new_worker "server.js" false w_running 0 worker);
    reflexivity.
Defined.

(** A write succeeds on an existing writable file, or on a missing one
    whose directory is writable. *)
Lemma write_file_sync_succeeds (f : file) (data : string) :
  (f_exists f = true /\ f_writable f = true) \/
  (f_exists f = false /\ f_parent f = DirWritable) ->
  exists f', write_file_sync f data = inl f'.
Proof.
  unfold write_file_sync; intros [[-> ->] | [-> ->]]; eauto.
Qed.

(** [write-build-done] on a build file that is writable, or missing in a
    writable directory, stores the date there and changes nothing else. *)
Theorem write_build_done_writes (date : string) (w : world) :
  (f_exists (build_file w) = true /\ f_writable (build_file w) = true) \/
  (f_exists (build_file w) = false /\ f_parent (build_file w) = DirWritable) ->
  exists w', write_build_done date w = Normal w' /\
    f_exists (build_file w') = true /\ f_content (build_file w') = date /\
    handle w' = handle w /\ procs w' = procs w /\
    pid_file w' = pid_file w /\ pending w' = pending w /\ trace w' = trace w.
Proof.
  intros H; unfold write_build_done.
  destruct (write_file_sync_succeeds _ date H) as [f Hf]; rewrite Hf.
  destruct (write_file_sync_inl _ _ _ Hf) as [He [Hc _]].
  eexists; split; [reflexivity|]; simpl; auto 10.
Qed.

Lemma write_build_done_writes_witness :
  exists w', write_build_done "Sat Oct 17 2026" w_pid_file = Normal w' /\
    f_exists (build_file w') = true /\
    f_content (build_file w') = "Sat Oct 17 2026" /\
    handle w' = handle w_pid_file /\ procs w' = procs w_pid_file /\
    pid_file w' = pid_file w_pid_file /\ pending w' = pending w_pid_file /\
    trace w' = trace w_pid_file.
Proof.
  apply (write_build_done_writes "Sat Oct 17 2026" w_pid_file); left; auto.
Defined.

(** [buildDone] at the end of a build: when [write-build-done] is
    registered and the build file is writable (or missing in a writable
    directory), the marker then holds the date; when it is not registered,
    nothing happens at all. *)
Theorem buildDone_marker (tasks : list string) (date : string) (w : world) :
  (In "write-build-done" tasks ->
   (f_exists (build_file w) = true /\ f_writable (build_file w) = true) \/
   (f_exists (build_file w) = false /\ f_parent (build_file w) = DirWritable) ->
   f_content (build_file (buildDone tasks date w)) = date /\
   trace (buildDone tasks date w) = trace w) /\
  (~ In "write-build-done" tasks -> buildDone tasks date w = w).
Proof.
  unfold buildDone, has_task; split.
  - intros Hin Hw.
    replace (existsb (String.eqb "write-build-done") tasks) with true
      by (symmetry; apply existsb_exists; exists "write-build-done";
          split; [exact Hin | apply String.eqb_refl]).
    unfold write_build_done.
    destruct (write_file_sync_succeeds _ date Hw) as [f Hf]; rewrite Hf.
    destruct (write_file_sync_inl _ _ _ Hf) as [_ [Hc _]]; simpl; auto.
  - intros Hnin.
    destruct (existsb (String.eqb "write-build-done") tasks) eqn:E;
      [|reflexivity].
    apply existsb_exists in E; destruct E as [t [Ht Heq]].
    apply String.eqb_eq in Heq; subst t; contradiction.
Qed.

Lemma buildDone_marker_witness :
  f_content (build_file (buildDone ["write-build-done"; "start"; "restart"]
                           "Sat Oct 17 2026" w_pid_file)) = "Sat Oct 17 2026" /\
  buildDone ["build-typescript"] "Sat Oct 17 2026" w_pid_file = w_pid_file.
Proof.
  split.
  - apply (proj1 (buildDone_marker ["write-build-done"; "start"; "restart"]
                    "Sat Oct 17 2026" w_pid_file)); simpl; auto.
  - apply (proj2 (buildDone_marker ["build-typescript"] "Sat Oct 17 2026"
                    w_pid_file)).
    simpl; intros [H|H]; [discriminate | exact H].
Defined.

(** The [sourceRoot] given to the source maps has the length of
    [path.relative]'s result, contains no backslash, and keeps every other
    character in place. *)
Theorem source_root_slashes (relative : string -> string -> string)
  (outputDirectory sourceDirectory : string) :
  let r := relative outputDirectory sourceDirectory in
  let s := source_root relative outputDirectory sourceDirectory in
  String.length s = String.length r /\
  (forall i c, String.get i s = Some c -> c <> "\"%char) /\
  (forall i c, String.get i r = Some c -> c <> "\"%char ->
     String.get i s = Some c).
Proof.
  cbv zeta; unfold source_root.
  split; [apply replace_backslashes_length|].
  split; intros i c; rewrite replace_backslashes_get.
  - destruct (String.get i _) as [d|]; simpl; [|discriminate].
    intros H; injection H as <-.
    destruct (Ascii.eqb d "\"%char) eqn:E; [discriminate|].
    intros ->; rewrite Ascii.eqb_refl in E; discriminate.
  - intros -> Hc; simpl.
    destruct (Ascii.eqb c "\"%char) eqn:E; [|reflexivity].
    apply Ascii.eqb_eq in E; contradiction.
Qed.

(** [build-typescript] creates its TypeScript project on its first run
    only: any number of runs leave the state of the first one, and from a
    fresh [runner] exactly one project has been created. *)
Theorem ts_project_created_once (n : nat) (st : ts_state) :
  Nat.iter (S n) ensure_ts_project st = ensure_ts_project st /\
  Nat.iter (S n) ensure_ts_project (mkTs None 0) = mkTs (Some 0) 1.
Proof.
  assert (Hidem : forall s, ensure_ts_project (ensure_ts_project s) =
                            ensure_ts_project s)
    by (intros [[p|] c]; reflexivity).
  assert (H : forall s, Nat.iter (S n) ensure_ts_project s =
                        ensure_ts_project s).
  { induction n as [|n IH]; intros s; [reflexivity|].
    change (Nat.iter (S (S n)) ensure_ts_project s) with
      (ensure_ts_project (Nat.iter (S n) ensure_ts_project s)).
    rewrite IH; apply Hidem. }
  split; [apply H | rewrite H; reflexivity].
Qed.

End Extras.
